(** * backend/app.py: the items service

    A shallow embedding of the Flask application in [backend/app.py]: the
    three views [health], [get_items] and [add_item], the module-level
    configuration read from [os.environ], and as much of the two libraries
    under them (Flask's request/response conversion and pymongo's
    [Collection]) as the views exercise.

    Python dicts are finite maps from strings; the one dict that is shared
    between the view and the driver ([item] in [add_item]) lives in an
    object heap and is passed by reference.  Views run in a state and
    exception monad over the [world]: an exception keeps the effects that
    happened before it was raised.

    What the libraries decide out of the service's sight is a parameter:
    which values the driver and the server refuse to store is a component
    of the world, and what [int], [MongoClient] and the database lookup
    reject at start-up are variables of the configuration section. *)

From Stdlib Require Import ZArith Ascii String Floats.SpecFloat Numbers.DecimalString.
From stdpp Require Import gmap strings list fin_maps.

Set Warnings "-register-all".
Local Open Scope Z_scope.

(** ** Values *)

(** What [json.loads] produces and [json.dumps] accepts: [None], [bool],
    [int], [float], [str], [list] and [dict] with string keys. *)
Inductive json : Type :=
| JNull
| JBool (b : bool)
| JInt (z : Z)
| JFloat (f : spec_float)
| JStr (s : string)
| JArr (l : list json)
| JObj (o : gmap string json).

(** A value held in a Python dict handled by the service: a JSON value, or
    the [bson.ObjectId] the driver stores under ["_id"]. *)
Inductive pyval : Type :=
| PJson (j : json)
| PObjectId (k : nat).

Abbreviation pydict := (gmap string pyval).

(** Python truth value testing, as used by [not name]: [None], [False],
    numeric zero and empty containers ([len(x) == 0]) are false. *)
Definition truthy (v : json) : bool :=
  match v with
  | JNull => false
  | JBool b => b
  | JInt z => negb (z =? 0)
  | JFloat f => match f with S754_zero _ => false | _ => true end
  | JStr s => negb (Nat.eqb (String.length s) 0)
  | JArr l => negb (Nat.eqb (length l) 0)
  | JObj o => negb (Nat.eqb (size o) 0)
  end.

(** ** Exceptions, results and the world *)

Inductive exn : Type :=
| BadRequest            (* werkzeug.exceptions.BadRequest, an HTTPException *)
| UnsupportedMediaType  (* werkzeug.exceptions.UnsupportedMediaType, likewise *)
| AttributeError
| TypeError
| ValueError
| SystemError
| DriverError.          (* any exception raised inside pymongo or bson:
                           OverflowError, InvalidDocument, DocumentTooLarge,
                           InvalidURI, InvalidName, ...; none of them is an
                           HTTPException *)

Inductive result (A : Type) : Type :=
| Ok (a : A)
| Raise (e : exn).
Arguments Ok {A} a.
Arguments Raise {A} e.

(** [objs]: the Python dict objects allocated so far, addressed by index.
    [items]: the documents of the [items] collection of the database, in
    insertion order.  [oid_seq]: the supply of fresh [ObjectId]s.
    [refuses]: the driver and the server as the service meets them, namely
    whether a value sent as a field of a document makes the insert fail (an
    [int] beyond 64 bits, text that cannot be encoded, a value too large or
    nested too deep, ...); no request changes it. *)
Record world : Type := World {
  objs : list pydict;
  items : list pydict;
  oid_seq : nat;
  refuses : json → bool
}.

(** The empty collection, before any request, with a driver that refuses
    nothing. *)
Definition init_world : world :=
  {| objs := []; items := []; oid_seq := 0; refuses := λ _, false |}.

Definition M (A : Type) : Type := world → result A * world.

Definition ret {A} (a : A) : M A := λ w, (Ok a, w).

Definition raise {A} (e : exn) : M A := λ w, (Raise e, w).

Definition bind {A B} (c : M A) (k : A → M B) : M B :=
  λ w, match c w with
       | (Ok a, w') => k a w'
       | (Raise e, w') => (Raise e, w')
       end.

Definition lift {A} (r : result A) : M A := λ w, (r, w).

#[global] Instance M_ret : MRet M := @ret.
#[global] Instance M_bind : MBind M := λ A B k c, bind c k.

(** ** Python dict objects on the heap *)

Definition ref : Type := nat.

(** A dict display [{...}] bound to a name: a new object. *)
Definition new_dict (d : pydict) : M ref :=
  λ w, (Ok (length (objs w)),
        {| objs := objs w ++ [d]; items := items w; oid_seq := oid_seq w;
           refuses := refuses w |}).

(** Reading the object behind a reference.  A reference handed out by
    [new_dict] is never dangling; the [SystemError] branch makes the lookup
    total. *)
Definition deref (r : ref) : M pydict :=
  λ w, match objs w !! r with
       | Some d => (Ok d, w)
       | None => (Raise SystemError, w)
       end.

(** [d[key] = v] on the object behind [r]. *)
Definition setitem (r : ref) (key : string) (v : pyval) : M unit :=
  λ w, match objs w !! r with
       | Some d => (Ok tt, {| objs := <[r := <[key := v]> d]> (objs w);
                             items := items w; oid_seq := oid_seq w;
                             refuses := refuses w |})
       | None => (Raise SystemError, w)
       end.

(** ** pymongo: the [items] collection *)

(** [ObjectId()]: a fresh identifier. *)
Definition new_ObjectId : M nat :=
  λ w, (Ok (oid_seq w),
        {| objs := objs w; items := items w; oid_seq := S (oid_seq w);
           refuses := refuses w |}).

(** Values that every driver and server store: a [bool], an [int] of 32
    bits, and printable ASCII text of at most 1024 characters. *)
Definition printable (a : ascii) : bool :=
  (32 <=? nat_of_ascii a)%nat && (nat_of_ascii a <=? 126)%nat.

Definition plain (v : json) : bool :=
  match v with
  | JBool _ => true
  | JInt z => (-2147483648 <=? z) && (z <=? 2147483647)
  | JStr s => (String.length s <=? 1024)%nat && forallb printable (list_ascii_of_string s)
  | _ => false
  end.

(** Whether a field value goes through: an [ObjectId] and a plain value
    always do, any other value unless the driver or the server refuses
    it. *)
Definition sendable (w : world) (v : pyval) : bool :=
  match v with
  | PObjectId _ => true
  | PJson j => plain j || negb (refuses w j)
  end.

(** Encoding and sending a document: it is appended to the collection as
    it is at the time of the call, or the insert fails and the collection
    is left as it was. *)
Definition server_insert (d : pydict) : M unit :=
  λ w, if map_fold (λ _ v acc, sendable w v && acc) true d
       then (Ok tt, {| objs := objs w; items := items w ++ [d]; oid_seq := oid_seq w;
                       refuses := refuses w |})
       else (Raise DriverError, w).

(** [Collection.insert_one(document)].  The driver runs
    [if "_id" not in document: document["_id"] = ObjectId()] on the caller's
    dict, in place, and then encodes and sends the document.  (A document
    that already carries an ["_id"] is sent as it is; the views never pass
    one.) *)
Definition insert_one (document : ref) : M unit :=
  d ← deref document;
  match d !! "_id" with
  | Some _ => server_insert d
  | None =>
      k ← new_ObjectId;
      setitem document "_id" (PObjectId k);;
      d' ← deref document;
      server_insert d'
  end.

(** [list(Collection.find({}, {"_id": 0}))]: every document, with the
    ["_id"] field projected away. *)
Definition find_all_without_id : M (list pydict) :=
  λ w, (Ok (delete "_id" <$> items w), w).

(** ** Flask: JSON in and out *)

(** The body of a request, as [request.get_json()] sees it.
    [Json j]: the content type is a JSON one and [json.loads] reads the
    text as [j] (so also text outside the JSON grammar that it accepts,
    such as [NaN]).  [Malformed]: the content type is a JSON one and
    [json.loads] rejects the text.  [NotJson]: the content type is not a
    JSON one, whatever the text. *)
Inductive body : Type :=
| Json (j : json)
| Malformed
| NotJson.

(** [request.get_json()]: the parsed value; [on_json_loading_failed] raises
    [UnsupportedMediaType] when the content type is not a JSON one and
    [BadRequest] when the text does not parse. *)
Definition get_json (b : body) : M json :=
  match b with
  | Json j => ret j
  | Malformed => raise BadRequest
  | NotJson => raise UnsupportedMediaType
  end.

(** [req.get("name")]: only a dict has [get]; a missing key gives [None]. *)
Definition py_get (req : json) (key : string) : M json :=
  match req with
  | JObj o => ret (default JNull (o !! key))
  | _ => raise AttributeError
  end.

(** The JSON provider's [dumps]: an [ObjectId] is not serializable. *)
Definition dumps_val (v : pyval) : option json :=
  match v with
  | PJson j => Some j
  | PObjectId _ => None
  end.

Definition serializable (d : pydict) : bool :=
  map_fold (λ _ v acc, match dumps_val v with Some _ => acc | None => false end) true d.

Definition dumps_dict (d : pydict) : result json :=
  if serializable d then Ok (JObj (omap dumps_val d)) else Raise TypeError.

Definition dumps_list (l : list pydict) : result json :=
  if forallb serializable l then Ok (JArr ((λ d, JObj (omap dumps_val d)) <$> l))
  else Raise TypeError.

Record response : Type := Response {
  status : Z;
  json_body : json
}.

(** [jsonify(data)] for a list of dicts: a 200 response. *)
Definition jsonify (data : list pydict) : M response :=
  j ← lift (dumps_list data);
  ret {| status := 200; json_body := j |}.

(** What Flask makes of a view's return value [rv] or [(rv, status)] when
    [rv] is a dict: the dict is serialized when the view has returned. *)
Definition make_response (rv : pydict) (code : Z) : M response :=
  j ← lift (dumps_dict rv);
  ret {| status := code; json_body := j |}.

(** ** The views *)

Definition health : M response :=
  make_response {[ "status" := PJson (JStr "ok") ]} 200.

Definition get_items : M response :=
  data ← find_all_without_id;
  jsonify data.

Definition add_item (b : body) : M response :=
  req ← get_json b;
  name ← py_get req "name";
  if negb (truthy name) then
    make_response {[ "error" := PJson (JStr "name required") ]} 400
  else
    item ← new_dict {[ "name" := PJson name ]};
    insert_one item;;
    rv ← deref item;
    make_response rv 201.

(** ** The application *)

(** What the client receives: a JSON document, or the HTML error page Flask
    renders for an exception. *)
Inductive payload : Type :=
| JsonBody (j : json)
| ErrorPage.

(** Flask's handling of a view's outcome: an [HTTPException] is rendered
    with its own code, any other exception as 500 Internal Server Error. *)
Definition wsgi_app (r : result response) : Z * payload :=
  match r with
  | Ok resp => (status resp, JsonBody (json_body resp))
  | Raise BadRequest => (400, ErrorPage)
  | Raise UnsupportedMediaType => (415, ErrorPage)
  | Raise _ => (500, ErrorPage)
  end.

(** The three routes registered with [app.get] and [app.post]. *)
Inductive request : Type :=
| GET_healthz
| GET_items
| POST_items (b : body).

Definition dispatch (r : request) : M response :=
  match r with
  | GET_healthz => health
  | GET_items => get_items
  | POST_items b => add_item b
  end.

Definition serve (r : request) (w : world) : (Z * payload) * world :=
  let (res, w') := dispatch r w in (wsgi_app res, w').

(** The world after a sequence of requests, served one after the other. *)
Definition serve_all (rs : list request) (w : world) : world :=
  foldl (λ w r, (serve r w).2) w rs.

(** ** Module-level configuration *)

Record settings : Type := Settings {
  MONGO_HOST : string;
  MONGO_PORT : Z;
  MONGO_DB : string
}.

Record connection : Type := Connection {
  uri : string;
  database : string;
  collection : string
}.

(** [str(n)] for an [int], as the f-string formats the port. *)
Definition str (n : Z) : string := NilZero.string_of_int (Z.to_int n).

(** The argument of [MongoClient] on line 14. *)
Definition client_uri (s : settings) : string :=
  "mongodb://" +:+ MONGO_HOST s +:+ ":" +:+ str (MONGO_PORT s) +:+ "/".

Section Config.
(** Python's [int(s)] on a [str]: [None] when it raises [ValueError]. *)
Variable int : string → option Z.
(** Whether [MongoClient(uri)] raises on this URI (a port out of range, a
    host it cannot parse, ...). *)
Variable bad_uri : string → bool.
(** Whether [client[name]] raises on this database name (the empty name, a
    name with a forbidden character, ...). *)
Variable bad_name : string → bool.

(** Lines 9 to 11.  The default of the port is the [int] 27017 itself,
    on which [int] is the identity. *)
Definition read_settings (environ : gmap string string) : result settings :=
  let host := default "mongo" (environ !! "MONGO_HOST") in
  let port := match environ !! "MONGO_PORT" with
              | Some s => int s
              | None => Some 27017
              end in
  let db := default "appdb" (environ !! "MONGO_DB") in
  match port with
  | Some p => Ok {| MONGO_HOST := host; MONGO_PORT := p; MONGO_DB := db |}
  | None => Raise ValueError
  end.

(** Lines 14 to 16: the client for the URI, then the database, then the
    collection; the first two are checked by the driver as they are
    made. *)
Definition connect (s : settings) : result connection :=
  if bad_uri (client_uri s) then Raise DriverError
  else if bad_name (MONGO_DB s) then Raise DriverError
  else Ok {| uri := client_uri s; database := MONGO_DB s; collection := "items" |}.

Definition startup (environ : gmap string string) : result connection :=
  match read_settings environ with
  | Ok s => connect s
  | Raise e => Raise e
  end.
End Config.

(** [int(s)] on ASCII text, for the examples: white space around, a sign,
    then decimal digits with single underscores between them. *)
Definition is_space (a : ascii) : bool :=
  let n := nat_of_ascii a in
  ((9 <=? n)%nat && (n <=? 13)%nat) || ((28 <=? n)%nat && (n <=? 32)%nat).

Definition is_digit (a : ascii) : bool :=
  (48 <=? nat_of_ascii a)%nat && (nat_of_ascii a <=? 57)%nat.

Fixpoint digits (acc : Z) (after_digit : bool) (l : list ascii) : option Z :=
  match l with
  | [] => if after_digit then Some acc else None
  | a :: l' =>
      if is_digit a then digits (10 * acc + Z.of_nat (nat_of_ascii a - 48)) true l'
      else if Ascii.eqb a "_" then (if after_digit then digits acc false l' else None)
      else None
  end.

Fixpoint lstrip (l : list ascii) : list ascii :=
  match l with
  | a :: l' => if is_space a then lstrip l' else l
  | [] => []
  end.

Definition strip (l : list ascii) : list ascii :=
  reverse (lstrip (reverse (lstrip l))).

Definition int_decimal (s : string) : option Z :=
  match strip (list_ascii_of_string s) with
  | "-"%char :: l => Z.opp <$> digits 0 false l
  | "+"%char :: l => digits 0 false l
  | l => digits 0 false l
  end.

(** ** Vocabulary of the statements *)

(** The document the service stores for a name: the driver's ["_id"] and
    the ["name"]. *)
Definition item_doc (k : nat) (name : json) : pydict :=
  <["_id" := PObjectId k]> {[ "name" := PJson name ]}.

(** The object [{"name": <value>}] of a response. *)
Definition name_obj (name : json) : json := JObj {[ "name" := name ]}.

Definition error_obj : json := JObj {[ "error" := JStr "name required" ]}.

Definition status_obj : json := JObj {[ "status" := JStr "ok" ]}.

(** The world after [add_item] has stored [name]: the dict [item] on the
    heap and the document in the collection, both with the new ["_id"]. *)
Definition stored (name : json) (w : world) : world :=
  {| objs := objs w ++ [item_doc (oid_seq w) name];
     items := items w ++ [item_doc (oid_seq w) name];
     oid_seq := S (oid_seq w);
     refuses := refuses w |}.

(** The world after [add_item] has tried to store [name] and the insert has
    failed: the dict [item] is on the heap with its ["_id"], the collection
    is as it was. *)
Definition attempted (name : json) (w : world) : world :=
  {| objs := objs w ++ [item_doc (oid_seq w) name];
     items := items w;
     oid_seq := S (oid_seq w);
     refuses := refuses w |}.

(** The world after [add_item] has passed the check on [name]. *)
Definition inserted (name : json) (w : world) : world :=
  if sendable w (PJson name) then stored name w else attempted name w.

Definition widget : body := Json (JObj {[ "name" := JStr "widget" ]}).

Definition has_nonempty_string_name (d : pydict) : Prop :=
  ∃ s, d !! "name" = Some (PJson (JStr s)) ∧ s ≠ EmptyString.

Definition has_truthy_name (d : pydict) : Prop :=
  ∃ v, d !! "name" = Some (PJson v) ∧ truthy v = true.

Definition written_by_service (d : pydict) : Prop :=
  ∃ k v, d = item_doc k v ∧ truthy v = true.

(** The name a request passes to [insert_one], when it gets that far: only
    a [POST /items] whose body is an object with a true ["name"] does. *)
Definition accepted_name (r : request) : option json :=
  match r with
  | POST_items (Json (JObj o)) =>
      let name := default JNull (o !! "name") in
      if truthy name then Some name else None
  | _ => None
  end.

(** The name a request adds to the collection, under a driver that
    refuses the values [rf]. *)
Definition stored_name (rf : json → bool) (r : request) : option json :=
  match accepted_name r with
  | Some v => if plain v || negb (rf v) then Some v else None
  | None => None
  end.

(** ** The monad, step by step *)

Lemma bind_Ok {A B} (c : M A) (k : A → M B) w a w' :
  c w = (Ok a, w') → (c ≫= k) w = k a w'.
Proof. intros E. unfold mbind, M_bind, bind. by rewrite E. Qed.

Lemma bind_Raise {A B} (c : M A) (k : A → M B) w e w' :
  c w = (Raise e, w') → (c ≫= k) w = (Raise e, w').
Proof. intros E. unfold mbind, M_bind, bind. by rewrite E. Qed.

Lemma deref_new (l : list pydict) d its n rf :
  deref (length l) {| objs := l ++ [d]; items := its; oid_seq := n; refuses := rf |}
  = (Ok d, {| objs := l ++ [d]; items := its; oid_seq := n; refuses := rf |}).
Proof. unfold deref. cbn [objs]. by rewrite list_lookup_middle. Qed.

Lemma setitem_new (l : list pydict) d its n rf key v :
  setitem (length l) key v {| objs := l ++ [d]; items := its; oid_seq := n; refuses := rf |}
  = (Ok tt, {| objs := l ++ [<[key := v]> d]; items := its; oid_seq := n; refuses := rf |}).
Proof.
  unfold setitem. cbn [objs items oid_seq refuses]. rewrite list_lookup_middle; [|done].
  do 2 f_equal. rewrite insert_app_r_alt; [|done]. by rewrite Nat.sub_diag.
Qed.

(** ** The driver and the serializer on the service's documents *)

Lemma item_doc_sendable w k v :
  map_fold (λ _ x acc, sendable w x && acc) true (item_doc k v) = sendable w (PJson v).
Proof.
  transitivity (sendable w (PJson v) && true); [|apply andb_true_r].
  reflexivity.
Qed.

(** [insert_one] on a freshly made [{"name": v}]: the caller's dict carries
    the new ["_id"] afterwards, and so does the stored document when the
    insert goes through. *)
Lemma insert_one_fresh_item (w : world) v :
  insert_one (length (objs w))
    {| objs := objs w ++ [{[ "name" := PJson v ]}]; items := items w;
       oid_seq := oid_seq w; refuses := refuses w |}
  = if sendable w (PJson v) then (Ok tt, stored v w)
    else (Raise DriverError, attempted v w).
Proof.
  unfold insert_one.
  rewrite (bind_Ok _ _ _ _ _ (deref_new _ _ _ _ _)).
  change (({[ "name" := PJson v ]} : pydict) !! "_id") with (@None pyval).
  cbv beta iota.
  erewrite bind_Ok; [|reflexivity]. cbn [oid_seq objs items refuses].
  erewrite bind_Ok; [|apply setitem_new].
  erewrite bind_Ok; [|apply deref_new].
  unfold server_insert.
  change (<["_id" := PObjectId (oid_seq w)]> {[ "name" := PJson v ]})
    with (item_doc (oid_seq w) v).
  rewrite (item_doc_sendable _ (oid_seq w) v).
  reflexivity.
Qed.

Lemma item_doc_not_serializable k v : serializable (item_doc k v) = false.
Proof. reflexivity. Qed.

Lemma item_doc_without_id k v : delete "_id" (item_doc k v) = {[ "name" := PJson v ]}.
Proof. reflexivity. Qed.

Lemma item_doc_name k v : item_doc k v !! "name" = Some (PJson v).
Proof. reflexivity. Qed.

Lemma dumps_name v : dumps_dict {[ "name" := PJson v ]} = Ok (name_obj v).
Proof. reflexivity. Qed.

(** ** The views, characterised *)

Lemma health_run w :
  health w = (Ok {| status := 200; json_body := status_obj |}, w).
Proof. reflexivity. Qed.

(** [add_item] on a JSON object [o], in full: the branch is decided by the
    truth value of [o.get("name")], and past the check by the driver. *)
Lemma add_item_object (o : gmap string json) w :
  add_item (Json (JObj o)) w
  = let name := default JNull (o !! "name") in
    if truthy name then
      (Raise (if sendable w (PJson name) then TypeError else DriverError), inserted name w)
    else (Ok {| status := 400; json_body := error_obj |}, w).
Proof.
  unfold add_item.
  erewrite bind_Ok; [|reflexivity].
  erewrite bind_Ok; [|reflexivity].
  cbv zeta. destruct (truthy (default JNull (o !! "name"))); cbn [negb]; [|reflexivity].
  erewrite bind_Ok; [|reflexivity].
  unfold inserted.
  destruct (sendable w (PJson (default JNull (o !! "name")))) eqn:S.
  - erewrite bind_Ok; [|by rewrite insert_one_fresh_item, S].
    erewrite bind_Ok; [|apply deref_new].
    unfold make_response. erewrite bind_Raise; [reflexivity|].
    unfold lift, dumps_dict. by rewrite item_doc_not_serializable.
  - erewrite bind_Raise; [reflexivity|]. by rewrite insert_one_fresh_item, S.
Qed.

(** A body that parses to anything but an object has no [get]. *)
Lemma add_item_not_object j w :
  (∀ o, j ≠ JObj o) → add_item (Json j) w = (Raise AttributeError, w).
Proof. intros H. destruct j; try reflexivity. by destruct (H o). Qed.

Lemma add_item_malformed w : add_item Malformed w = (Raise BadRequest, w).
Proof. reflexivity. Qed.

(** [get_items] never writes. *)
Lemma get_items_world w : (get_items w).2 = w.
Proof.
  unfold get_items, find_all_without_id, jsonify, lift, mbind, M_bind, bind.
  by destruct (dumps_list _).
Qed.

Lemma dumps_list_items (kvs : list (nat * json)) :
  dumps_list (delete "_id" <$> ((λ kv, item_doc kv.1 kv.2) <$> kvs))
  = Ok (JArr ((λ kv, name_obj kv.2) <$> kvs)).
Proof.
  unfold dumps_list.
  assert (forallb serializable
            (delete "_id" <$> ((λ kv, item_doc kv.1 kv.2) <$> kvs)) = true) as ->.
  { induction kvs as [|[k v] kvs IH]; [done|]. by rewrite !fmap_cons. }
  do 2 f_equal. induction kvs as [|[k v] kvs IH]; [done|].
  rewrite !fmap_cons, IH. reflexivity.
Qed.

Lemma get_items_run w (kvs : list (nat * json)) :
  items w = (λ kv, item_doc kv.1 kv.2) <$> kvs →
  get_items w
  = (Ok {| status := 200; json_body := JArr ((λ kv, name_obj kv.2) <$> kvs) |}, w).
Proof.
  intros E. unfold get_items.
  erewrite bind_Ok; [|reflexivity]. unfold jsonify.
  erewrite bind_Ok; [reflexivity|].
  unfold lift. by rewrite E, dumps_list_items.
Qed.

Lemma serve_add_item_object (o : gmap string json) w :
  serve (POST_items (Json (JObj o))) w
  = if truthy (default JNull (o !! "name"))
    then ((500, ErrorPage), inserted (default JNull (o !! "name")) w)
    else ((400, JsonBody error_obj), w).
Proof.
  unfold serve. cbn [dispatch]. rewrite add_item_object. cbv zeta.
  destruct (truthy _); [|done]. by destruct (sendable _ _).
Qed.

Lemma serve_get_items w (kvs : list (nat * json)) :
  items w = (λ kv, item_doc kv.1 kv.2) <$> kvs →
  serve GET_items w = ((200, JsonBody (JArr ((λ kv, name_obj kv.2) <$> kvs))), w).
Proof. intros E. unfold serve. cbn [dispatch]. by rewrite (get_items_run w kvs E). Qed.

Lemma serve_world r w : (serve r w).2 = (dispatch r w).2.
Proof. unfold serve. by destruct (dispatch r w). Qed.

Lemma inserted_plain v w : plain v = true → inserted v w = stored v w.
Proof. intros P. unfold inserted, sendable. by rewrite P. Qed.

Lemma inserted_refuses v w : refuses (inserted v w) = refuses w.
Proof. unfold inserted. by destruct (sendable _ _). Qed.

Lemma inserted_items v w :
  items (inserted v w)
  = if sendable w (PJson v) then items w ++ [item_doc (oid_seq w) v] else items w.
Proof. unfold inserted. by destruct (sendable _ _). Qed.

(** What a request does to the world. *)
Lemma serve_world_accepted r w :
  (serve r w).2 = from_option (λ v, inserted v w) w (accepted_name r).
Proof.
  destruct r as [| |[j| |]]; [done|..|done|done].
  - rewrite serve_world. apply get_items_world.
  - destruct j; try done.
    rewrite serve_add_item_object. cbn [accepted_name]. cbv zeta.
    by destruct (truthy _).
Qed.

Lemma serve_refuses r w : refuses (serve r w).2 = refuses w.
Proof.
  rewrite serve_world_accepted.
  destruct (accepted_name r); [apply inserted_refuses|done].
Qed.

(** ** What the collection can hold *)

Lemma dispatch_items_cases r w :
  items (dispatch r w).2 = items w
  ∨ ∃ v, truthy v = true ∧ items (dispatch r w).2 = items w ++ [item_doc (oid_seq w) v].
Proof.
  rewrite <-serve_world, serve_world_accepted.
  destruct r as [| |[j| |]]; try by left.
  destruct j; try by left.
  cbn [accepted_name]. cbv zeta.
  destruct (truthy (default JNull (o !! "name"))) eqn:T; [|by left].
  cbn [from_option]. rewrite inserted_items.
  destruct (sendable _ _); [|by left]. right. by eexists.
Qed.

Lemma serve_written_by_service r w :
  Forall written_by_service (items w) →
  Forall written_by_service (items (serve r w).2).
Proof.
  intros H. rewrite serve_world.
  destruct (dispatch_items_cases r w) as [-> | (v & T & ->)]; [done|].
  apply Forall_app. split; [done|].
  apply Forall_singleton. by exists (oid_seq w), v.
Qed.

Lemma serve_all_written_by_service rs w :
  Forall written_by_service (items w) →
  Forall written_by_service (items (serve_all rs w)).
Proof.
  revert w. induction rs as [|r rs IH]; intros w H; [done|].
  cbn [serve_all foldl]. apply IH. by apply serve_written_by_service.
Qed.

Lemma truthy_string_nonempty s : truthy (JStr s) = true → s ≠ EmptyString.
Proof. by intros T ->. Qed.

(** The collection after a sequence of requests: the documents that were
    there, then one document for each name that got stored, in order. *)
Lemma serve_all_items rs w :
  ∃ kvs : list (nat * json),
    items (serve_all rs w) = items w ++ ((λ kv, item_doc kv.1 kv.2) <$> kvs)
    ∧ kvs.*2 = omap (stored_name (refuses w)) rs.
Proof.
  revert w. induction rs as [|r rs IH]; intros w.
  - exists []. cbn. by rewrite app_nil_r.
  - cbn [serve_all foldl]. fold (serve_all rs (serve r w).2).
    destruct (IH (serve r w).2) as (kvs & E & N).
    rewrite serve_refuses in N. rewrite E, serve_world_accepted.
    cbn [omap list_omap]. unfold stored_name at 1.
    destruct (accepted_name r) as [v|]; cbn [from_option].
    + rewrite inserted_items.
      change (plain v || negb (refuses w v)) with (sendable w (PJson v)).
      destruct (sendable w (PJson v)); [|by exists kvs].
      exists ((oid_seq w, v) :: kvs). split; [|by rewrite fmap_cons, N].
      by rewrite fmap_cons, <-app_assoc.
    + by exists kvs.
Qed.

Lemma serve_all_accepted_nil rs w :
  omap accepted_name rs = [] → serve_all rs w = w.
Proof.
  revert w. induction rs as [|r rs IH]; intros w; [done|].
  cbn [omap list_omap serve_all foldl]. fold (serve_all rs (serve r w).2).
  rewrite serve_world_accepted.
  destruct (accepted_name r); [done|]. apply IH.
Qed.

(** * The create-item operation *)

(** C1, where the code departs from it.  [POST /items] with the body
    [{"name": "widget"}], in any world: the item is persisted, but the dict
    the view returns is the one [insert_one] has added an ["_id"] to, Flask
    cannot serialize the [ObjectId], and the client gets a 500 error page
    instead of status 201 with the body [{"name": "widget"}]. *)
Theorem add_item_widget_server_error w :
  serve (POST_items widget) w = ((500, ErrorPage), stored (JStr "widget") w)
  ∧ (serve (POST_items widget) w).1 ≠ (201, JsonBody (name_obj (JStr "widget")))
  ∧ (∃ rv, objs (serve (POST_items widget) w).2 !! length (objs w) = Some rv
           ∧ rv !! "_id" = Some (PObjectId (oid_seq w))
           ∧ rv !! "name" = Some (PJson (JStr "widget"))).
Proof.
  assert (serve (POST_items widget) w = ((500, ErrorPage), stored (JStr "widget") w)) as E.
  { rewrite <-(inserted_plain (JStr "widget") w eq_refl).
    exact (serve_add_item_object {[ "name" := JStr "widget" ]} w). }
  rewrite E. split_and!; [done|done|].
  exists (item_doc (oid_seq w) (JStr "widget")). split_and!; [|done|done].
  cbn [snd stored objs]. by rewrite list_lookup_middle.
Qed.

(** C2, where the code departs from it.  [POST /items] with a JSON object
    that has no ["name"], or whose ["name"] is the empty string, gets
    status 400 with [{"error": "name required"}] and the world is as it
    was.  But a JSON body that is not an object ([null], [[]], ["x"], [7])
    has no ["name"] field either, and it gets a 500 error page: [req.get]
    raises [AttributeError] before the check is reached. *)
Theorem add_item_name_required w :
  (∀ o : gmap string json,
     o !! "name" = None ∨ o !! "name" = Some (JStr EmptyString) →
     serve (POST_items (Json (JObj o))) w = ((400, JsonBody error_obj), w))
  ∧ Forall (λ j, serve (POST_items (Json j)) w = ((500, ErrorPage), w)
                 ∧ (serve (POST_items (Json j)) w).1 ≠ (400, JsonBody error_obj))
      [JNull; JArr []; JStr "x"; JInt 7].
Proof.
  split.
  - intros o [E|E]; rewrite serve_add_item_object, E; reflexivity.
  - repeat constructor; discriminate.
Qed.

Lemma add_item_name_required_witness :
  serve (POST_items (Json (JObj ∅))) init_world = ((400, JsonBody error_obj), init_world)
  ∧ serve (POST_items (Json (JObj {[ "name" := JStr EmptyString ]}))) init_world
    = ((400, JsonBody error_obj), init_world)
  ∧ serve (POST_items (Json (JArr []))) init_world = ((500, ErrorPage), init_world).
Proof.
  destruct (add_item_name_required init_world) as [H F].
  split_and!.
  - apply (H ∅). left. reflexivity.
  - apply (H {[ "name" := JStr EmptyString ]}). right. reflexivity.
  - apply Forall_inv_tail, Forall_inv in F. exact (proj1 F).
Defined.



(** C10, where the code departs from it.  The check on ["name"] is Python
    truth value testing of whatever JSON value the field holds.  Each of
    [null], [false], [0], [0.0], the empty string, [[]] and [{}] is false; a field with
    a false value gets status 400 with [{"error": "name required"}] and
    nothing is stored; a field with a true value of any type is handed to
    [insert_one] as it is, and stored unless the driver refuses it.  But
    past the check the answer is a 500 error page in either case, never
    status 201 (the defect of C1 when the item is stored). *)
Theorem add_item_truth_value_test :
  Forall (λ v, truthy v = false)
    [JNull; JBool false; JInt 0; JFloat (S754_zero false); JStr EmptyString; JArr []; JObj ∅]
  ∧ ∀ (o : gmap string json) v w,
      o !! "name" = Some v →
      serve (POST_items (Json (JObj o))) w
      = if truthy v then
          ((500, ErrorPage),
           if plain v || negb (refuses w v) then stored v w else attempted v w)
        else ((400, JsonBody error_obj), w).
Proof.
  split; [by repeat constructor|].
  intros o v w E. by rewrite serve_add_item_object, E.
Qed.

Lemma add_item_truth_value_test_witness :
  serve (POST_items (Json (JObj {[ "name" := JInt 5 ]}))) init_world
  = ((500, ErrorPage), stored (JInt 5) init_world)
  ∧ serve (POST_items (Json (JObj {[ "name" := JArr [] ]}))) init_world
    = ((400, JsonBody error_obj), init_world).
Proof.
  split.
  - apply (proj2 add_item_truth_value_test {[ "name" := JInt 5 ]} (JInt 5) init_world).
    reflexivity.
  - apply (proj2 add_item_truth_value_test {[ "name" := JArr [] ]} (JArr []) init_world).
    reflexivity.
Defined.

(** * The read operations *)

(** C5.  [GET /healthz], in any world: status 200, body [{"status": "ok"}],
    and the world is as it was. *)
Theorem health_ok w :
  serve GET_healthz w = ((200, JsonBody status_obj), w).
Proof. reflexivity. Qed.

(** C4.  [GET /items] on a collection of documents stored by the service,
    each an ["_id"] and a ["name"]: status 200 and an array with one object
    per document, in order, each object being [{"name": <value>}] with no
    ["_id"]; on the empty collection the array is empty.  The world is as
    it was. *)
Theorem get_items_names w (kvs : list (nat * json)) :
  items w = (λ kv, item_doc kv.1 kv.2) <$> kvs →
  serve GET_items w = ((200, JsonBody (JArr ((λ kv, name_obj kv.2) <$> kvs))), w)
  ∧ length ((λ kv, name_obj kv.2) <$> kvs) = length (items w)
  ∧ (items w = [] → serve GET_items w = ((200, JsonBody (JArr [])), w)).
Proof.
  intros E. rewrite (serve_get_items w kvs E). split_and!.
  - done.
  - by rewrite E, !length_fmap.
  - intros E0. rewrite E0 in E. symmetry in E. apply fmap_nil_inv in E. by subst.
Qed.

Lemma get_items_names_witness :
  serve GET_items init_world = ((200, JsonBody (JArr [])), init_world)
  ∧ serve GET_items (stored (JStr "nut") (stored (JStr "bolt") init_world))
    = ((200, JsonBody (JArr [name_obj (JStr "bolt"); name_obj (JStr "nut")])),
       stored (JStr "nut") (stored (JStr "bolt") init_world)).
Proof.
  split.
  - destruct (get_items_names init_world [] eq_refl) as (_ & _ & H).
    apply H. reflexivity.
  - destruct (get_items_names (stored (JStr "nut") (stored (JStr "bolt") init_world))
                [(0%nat, JStr "bolt"); (1%nat, JStr "nut")] eq_refl) as (H & _).
    exact H.
Defined.

(** C8.  Two [GET /items] in a row, in any world: the second answer is the
    first, status and body, and neither request changes the world. *)
Theorem get_items_twice w :
  (serve GET_items w).2 = w
  ∧ (serve GET_items (serve GET_items w).2).2 = w
  ∧ (serve GET_items (serve GET_items w).2).1 = (serve GET_items w).1.
Proof.
  assert ((serve GET_items w).2 = w) as E.
  { rewrite serve_world. apply get_items_world. }
  by rewrite !E.
Qed.

(** C7.  In any world whose collection the service has written, once
    [POST /items] with [{"name": "widget"}] has been served the item is in
    the collection, and a [GET /items] answers 200 with an array that ends
    with, and so includes, [{"name": "widget"}]. *)
Theorem add_item_then_get_items w (kvs : list (nat * json)) :
  items w = (λ kv, item_doc kv.1 kv.2) <$> kvs →
  items (serve (POST_items widget) w).2 = items w ++ [item_doc (oid_seq w) (JStr "widget")]
  ∧ serve GET_items (serve (POST_items widget) w).2
    = ((200, JsonBody (JArr (((λ kv, name_obj kv.2) <$> kvs) ++ [name_obj (JStr "widget")]))),
       (serve (POST_items widget) w).2)
  ∧ name_obj (JStr "widget") ∈ ((λ kv, name_obj kv.2) <$> kvs) ++ [name_obj (JStr "widget")].
Proof.
  intros E.
  assert (serve (POST_items widget) w = ((500, ErrorPage), stored (JStr "widget") w)) as ->.
  { rewrite <-(inserted_plain (JStr "widget") w eq_refl).
    exact (serve_add_item_object {[ "name" := JStr "widget" ]} w). }
  split_and!; [done| |set_solver].
  cbn [fst snd].
  rewrite (serve_get_items _ (kvs ++ [(oid_seq w, JStr "widget")])).
  - by rewrite fmap_app.
  - cbn [stored items]. by rewrite E, fmap_app.
Qed.

Lemma add_item_then_get_items_witness :
  serve GET_items (serve (POST_items widget) init_world).2
  = ((200, JsonBody (JArr [name_obj (JStr "widget")])),
     (serve (POST_items widget) init_world).2).
Proof.
  destruct (add_item_then_get_items init_world [] eq_refl) as (_ & H & _).
  exact H.
Defined.

(** * The invariant of the collection *)

(** C6 as it is stated fails: after [POST /items] with [{"name": 5}] on the
    empty collection, the stored item's ["name"] is the number 5, not a
    string. *)
Lemma stored_name_not_a_string :
  ¬ Forall has_nonempty_string_name
      (items (serve_all [POST_items (Json (JObj {[ "name" := JInt 5 ]}))] init_world)).
Proof.
  intros H. apply Forall_inv in H. destruct H as (s & E & _). discriminate E.
Qed.

(** C6, amended.  Starting from an empty collection, after any sequence of
    requests every stored item has a ["name"] holding a JSON value that
    tests true; the value need not be a string, and when it is one it is
    not empty. *)
Theorem stored_names_truthy (rs : list request) w :
  items w = [] →
  Forall (λ d, ∃ v, d !! "name" = Some (PJson v) ∧ truthy v = true
                    ∧ ∀ s, v = JStr s → s ≠ EmptyString)
    (items (serve_all rs w)).
Proof.
  intros E.
  assert (Forall written_by_service (items (serve_all rs w))) as H.
  { apply serve_all_written_by_service. by rewrite E. }
  eapply Forall_impl; [exact H|].
  intros d (k & v & -> & T). exists v. split_and!; [done|done|].
  intros s ->. by apply truthy_string_nonempty.
Qed.

Lemma stored_names_truthy_witness :
  Forall (λ d, ∃ v, d !! "name" = Some (PJson v) ∧ truthy v = true
                    ∧ ∀ s, v = JStr s → s ≠ EmptyString)
    (items (serve_all [POST_items widget; GET_items;
                       POST_items (Json (JObj {[ "name" := JInt 5 ]}));
                       POST_items (Json (JObj ∅)); GET_healthz] init_world)).
Proof. apply (stored_names_truthy _ init_world). reflexivity. Defined.

(** * Configuration *)



(** * Beyond the stated contract *)

(** ** Sequences of requests *)

(** X6.  The collection is append-only: after any sequence of requests the
    documents that were there are still there, unchanged and in the same
    positions, and the collection has grown by exactly the number of
    [POST /items] requests whose ["name"] tested true and was not refused
    by the driver. *)
Theorem serve_all_append_only rs w :
  items w `prefix_of` items (serve_all rs w)
  ∧ length (items (serve_all rs w))
    = (length (items w) + length (omap (stored_name (refuses w)) rs))%nat.
Proof.
  destruct (serve_all_items rs w) as (kvs & -> & N). split.
  - by apply prefix_app_r.
  - by rewrite length_app, length_fmap, <-N, length_fmap.
Qed.

(** X7.  On a collection written by the service, [GET /items] after any
    sequence of requests lists the names that were there, followed by the
    names of the [POST /items] requests that passed the check and were not
    refused by the driver, in the order they were served; the other
    requests leave no trace. *)
Theorem get_items_after_requests rs w (kvs : list (nat * json)) :
  items w = (λ kv, item_doc kv.1 kv.2) <$> kvs →
  serve GET_items (serve_all rs w)
  = ((200, JsonBody (JArr (((λ kv, name_obj kv.2) <$> kvs)
                           ++ (name_obj <$> omap (stored_name (refuses w)) rs)))),
     serve_all rs w).
Proof.
  intros E. destruct (serve_all_items rs w) as (kvs' & E' & N).
  rewrite (serve_get_items _ (kvs ++ kvs')).
  - by rewrite fmap_app, <-N, <-list_fmap_compose.
  - by rewrite E', E, fmap_app.
Qed.

Lemma get_items_after_requests_witness :
  serve GET_items
    (serve_all [POST_items widget; POST_items Malformed; GET_items;
                POST_items (Json (JObj {[ "name" := JInt 5 ]}));
                POST_items (Json (JObj ∅))] init_world)
  = ((200, JsonBody (JArr [name_obj (JStr "widget"); name_obj (JInt 5)])),
     serve_all [POST_items widget; POST_items Malformed; GET_items;
                POST_items (Json (JObj {[ "name" := JInt 5 ]}));
                POST_items (Json (JObj ∅))] init_world).
Proof.
  exact (get_items_after_requests
           [POST_items widget; POST_items Malformed; GET_items;
            POST_items (Json (JObj {[ "name" := JInt 5 ]}));
            POST_items (Json (JObj ∅))] init_world [] eq_refl).
Defined.

(** X8.  A sequence of requests none of which is an accepted [POST /items]
    (health checks, listings, rejected and failed posts) leaves the world
    exactly as it was. *)
Theorem serve_all_without_accepted_post rs w :
  Forall (λ r, accepted_name r = None) rs → serve_all rs w = w.
Proof.
  intros H. apply serve_all_accepted_nil.
  induction H as [|r rs Hr _ IH]; [done|]. cbn [omap list_omap]. by rewrite Hr.
Qed.

Lemma serve_all_without_accepted_post_witness :
  serve_all [GET_healthz; POST_items (Json (JObj ∅)); GET_items;
             POST_items Malformed; POST_items (Json (JArr [JInt 1]))]
    (stored (JStr "bolt") init_world)
  = stored (JStr "bolt") init_world.
Proof.
  apply (serve_all_without_accepted_post
           [GET_healthz; POST_items (Json (JObj ∅)); GET_items;
            POST_items Malformed; POST_items (Json (JArr [JInt 1]))]
           (stored (JStr "bolt") init_world)).
  repeat constructor.
Defined.

(** X4.  There is no uniqueness check: the same [POST /items], with a
    ["name"] that tests true and that the driver does not refuse, served
    twice stores two documents with the same ["name"], under two
    identifiers. *)
Theorem add_item_twice_stores_twice (o : gmap string json) v w :
  o !! "name" = Some v → truthy v = true → plain v || negb (refuses w v) = true →
  items (serve_all [POST_items (Json (JObj o)); POST_items (Json (JObj o))] w)
  = items w ++ [item_doc (oid_seq w) v; item_doc (S (oid_seq w)) v].
Proof.
  intros E T P. cbn [serve_all foldl].
  assert (∀ w', refuses w' = refuses w →
            (serve (POST_items (Json (JObj o))) w').2 = stored v w') as St.
  { intros w' R. rewrite serve_add_item_object, E. cbn [default from_option id].
    rewrite T. cbn [snd]. unfold inserted, sendable. by rewrite R, P. }
  rewrite (St w eq_refl), (St (stored v w) eq_refl).
  cbn [stored items oid_seq]. by rewrite <-app_assoc.
Qed.

Lemma add_item_twice_stores_twice_witness :
  items (serve_all [POST_items widget; POST_items widget] init_world)
  = [item_doc 0 (JStr "widget"); item_doc 1 (JStr "widget")].
Proof.
  exact (add_item_twice_stores_twice {[ "name" := JStr "widget" ]} (JStr "widget")
           init_world eq_refl eq_refl eq_refl).
Defined.

(** ** One request *)

(** X1.  [POST /items] with a body that is valid JSON but not an object (an
    array, a string, a number, [true], [null]): [req.get] raises
    [AttributeError], the client gets a 500 error page instead of the 400
    of a missing name, and the world is as it was. *)
Theorem add_item_non_object_body j w :
  (∀ o, j ≠ JObj o) →
  add_item (Json j) w = (Raise AttributeError, w)
  ∧ serve (POST_items (Json j)) w = ((500, ErrorPage), w).
Proof.
  intros H. assert (add_item (Json j) w = (Raise AttributeError, w)) as E
    by by apply add_item_not_object.
  split; [done|]. unfold serve. cbn [dispatch]. by rewrite E.
Qed.

Lemma add_item_non_object_body_witness :
  serve (POST_items (Json (JArr [JStr "widget"]))) init_world = ((500, ErrorPage), init_world)
  ∧ serve (POST_items (Json JNull)) init_world = ((500, ErrorPage), init_world).
Proof.
  split.
  - apply (add_item_non_object_body (JArr [JStr "widget"]) init_world). discriminate.
  - apply (add_item_non_object_body JNull init_world). discriminate.
Defined.

(** X2.  For a ["name"] that is a string the only value rejected with the
    400 JSON error is the empty string: any other string, blank or not,
    is handed to [insert_one] as it is, without trimming, and is stored
    unless the driver refuses it. *)
Theorem add_item_string_name (o : gmap string json) s w :
  o !! "name" = Some (JStr s) →
  ((serve (POST_items (Json (JObj o))) w).1 = (400, JsonBody error_obj) ↔ s = EmptyString)
  ∧ (s ≠ EmptyString →
     items (serve (POST_items (Json (JObj o))) w).2
     = if plain (JStr s) || negb (refuses w (JStr s))
       then items w ++ [item_doc (oid_seq w) (JStr s)]
       else items w).
Proof.
  intros E. rewrite serve_add_item_object, E. cbn [default from_option id].
  destruct s as [|a s].
  - split; [done|]. by intros [].
  - change (truthy (JStr (String a s))) with true. cbv iota. split.
    + split; discriminate.
    + intros _. cbn [snd]. apply inserted_items.
Qed.

Lemma add_item_string_name_witness :
  items (serve (POST_items (Json (JObj {[ "name" := JStr " " ]}))) init_world).2
  = [item_doc 0 (JStr " ")].
Proof.
  assert (({[ "name" := JStr " " ]} : gmap string json) !! "name" = Some (JStr " ")) as E
    by reflexivity.
  destruct (add_item_string_name {[ "name" := JStr " " ]} " " init_world E) as [_ H].
  apply H. discriminate.
Defined.

(** X3.  [add_item] reads the ["name"] field of the body and nothing else:
    two object bodies that agree on ["name"] get the same answer and leave
    the same world, so no other field of a body is ever stored. *)
Theorem add_item_reads_name_only (o o' : gmap string json) w :
  o !! "name" = o' !! "name" →
  serve (POST_items (Json (JObj o))) w = serve (POST_items (Json (JObj o'))) w.
Proof. intros E. by rewrite !serve_add_item_object, E. Qed.

Lemma add_item_reads_name_only_witness :
  serve (POST_items (Json (JObj {[ "name" := JStr "widget"; "price" := JInt 3;
                                  "_id" := JStr "mine" ]}))) init_world
  = serve (POST_items widget) init_world.
Proof.
  apply (add_item_reads_name_only
           {[ "name" := JStr "widget"; "price" := JInt 3; "_id" := JStr "mine" ]}
           {[ "name" := JStr "widget" ]} init_world).
  reflexivity.
Defined.

(** X9.  No [POST /items] is answered with a success: whatever the body and
    the world, the answer is the 400 JSON error, the framework's 400 page
    or its 415 page, each with the world as it was, or a 500 page; and only
    a 500 can come with a stored item, whose ["name"] then tests true. *)
Theorem add_item_never_created b w :
  serve (POST_items b) w = ((400, JsonBody error_obj), w)
  ∨ serve (POST_items b) w = ((400, ErrorPage), w)
  ∨ serve (POST_items b) w = ((415, ErrorPage), w)
  ∨ ((serve (POST_items b) w).1 = (500, ErrorPage)
     ∧ (items (serve (POST_items b) w).2 = items w
        ∨ ∃ v, truthy v = true
               ∧ items (serve (POST_items b) w).2 = items w ++ [item_doc (oid_seq w) v])).
Proof.
  destruct b as [j| |]; [|by right; left|by right; right; left].
  destruct j; try by (right; right; right; split; [|left]).
  rewrite serve_add_item_object.
  destruct (truthy _) eqn:T; [|by left].
  right; right; right. split; [done|]. cbn [snd]. rewrite inserted_items.
  destruct (sendable _ _); [|by left]. right. by eexists.
Qed.

(** X5.  The answer to a [POST /items] does not depend on what is stored:
    the same body gets the same status and payload in any two worlds, so
    a name that is already in the collection is treated like a new one. *)
Theorem add_item_answer_ignores_store b w w' :
  (serve (POST_items b) w).1 = (serve (POST_items b) w').1.
Proof.
  destruct b as [j| |]; [|done|done].
  destruct j; try done.
  rewrite !serve_add_item_object. by destruct (truthy _).
Qed.

(** X10.  [GET /items] never exposes the ["_id"] field, whatever documents
    the collection holds: either it fails with a 500 page (a document has
    another field that cannot be serialized), or it answers 200 with one
    object per document, none of which has an ["_id"] key.  The world is
    unchanged either way. *)
Theorem get_items_never_exposes_id w :
  (serve GET_items w).2 = w
  ∧ ((serve GET_items w).1 = (500, ErrorPage)
     ∨ ∃ os : list (gmap string json),
         (serve GET_items w).1 = (200, JsonBody (JArr (JObj <$> os)))
         ∧ length os = length (items w)
         ∧ Forall (λ o, o !! "_id" = None) os).
Proof.
  split; [rewrite serve_world; apply get_items_world|].
  unfold serve. cbn [dispatch]. unfold get_items.
  erewrite bind_Ok; [|reflexivity]. unfold jsonify, lift, dumps_list, mbind, M_bind, bind.
  destruct (forallb serializable _); [|by left].
  right.
  exists ((λ d : pydict, (omap dumps_val (delete "_id" d) : gmap string json)) <$> items w).
  split_and!.
  - cbn. by rewrite <-!list_fmap_compose.
  - by rewrite length_fmap.
  - apply Forall_fmap, Forall_forall. intros d _. cbn.
    by rewrite lookup_omap, lookup_delete_eq.
Qed.

(** ** Start-up *)

(** X11.  When [MONGO_PORT] is set to text that [int] does not accept, the
    module fails with [ValueError] while it is loaded: no connection is
    built, whatever the host and the database are set to. *)
Theorem startup_bad_port (int : string → option Z) (bad_uri bad_name : string → bool)
    (environ : gmap string string) p :
  environ !! "MONGO_PORT" = Some p → int p = None →
  read_settings int environ = Raise ValueError
  ∧ startup int bad_uri bad_name environ = Raise ValueError.
Proof.
  intros Ep En. unfold startup, read_settings. by rewrite Ep, En.
Qed.

Lemma startup_bad_port_witness :
  startup int_decimal (λ _, false) (λ _, false)
    {[ "MONGO_HOST" := "db.local"; "MONGO_PORT" := "27o17" ]}
  = Raise ValueError.
Proof.
  apply (startup_bad_port int_decimal (λ _, false) (λ _, false)
           {[ "MONGO_HOST" := "db.local"; "MONGO_PORT" := "27o17" ]} "27o17");
    reflexivity.
Defined.
